(** * The tenant endpoint of [pages/api/tenant/[slug].ts]

    A shallow embedding of the Next.js API handler that fetches, creates and
    patches tenants, together with the properties of its request gate, its
    delegation to the tenant store and the session verifier, and its mapping
    of their outcomes to HTTP responses. *)

From stdpp Require Import gmap strings list fin_maps pretty.
From Stdlib Require Import ZArith.

Open Scope Z_scope.
Open Scope string_scope.

(** ** JavaScript values

    The values that travel through the handler: what the body parser and the
    query parser of Next.js deliver, and what the handler builds.  Numbers are
    the integral ones; the handler only tests numbers for truthiness and
    strict equality and stores them, and the response object reads them as
    status codes. *)

#[warnings="-register-all"]
Inductive JsVal : Type :=
  | JUndef
  | JNull
  | JBool (b : bool)
  | JNum (n : Z)
  | JStr (s : string)
  | JArr (l : list JsVal)
  | JObj (m : gmap string JsVal).

(** The truthiness tested by [!v]. *)
Definition truthy (v : JsVal) : bool :=
  match v with
  | JUndef | JNull => false
  | JBool b => b
  | JNum n => negb (n =? 0)%Z
  | JStr s => negb (String.eqb s "")
  | JArr _ | JObj _ => true
  end.

(** [a === b].  Primitives compare by value; arrays and objects compare by
    reference, and the two sides of every comparison in the handler come from
    different sources (the request on one side, the environment or the session
    verifier on the other), so two of them are never the same reference. *)
Definition strict_eq (a b : JsVal) : bool :=
  match a, b with
  | JUndef, JUndef => true
  | JNull, JNull => true
  | JBool x, JBool y => Bool.eqb x y
  | JNum x, JNum y => (x =? y)%Z
  | JStr x, JStr y => String.eqb x y
  | _, _ => false
  end.

(** [o.k] on an object: the own property, or [undefined]. *)
Definition prop (o : gmap string JsVal) (k : string) : JsVal :=
  default JUndef (o !! k).

(** [v?.k] for the keys the handler reads ([id] and [slug]): nothing for
    [null] and [undefined], the own property of an object, and [undefined] on
    every other value, none of whose prototypes defines these keys. *)
Definition opt_prop (v : JsVal) (k : string) : JsVal :=
  match v with
  | JObj m => prop m k
  | _ => JUndef
  end.

(** The properties collected by [const {k, ...rest} = v]: every own enumerable
    property of [v] but [k].  Arrays and strings contribute their indexed
    elements, the other primitives nothing. *)
Definition indexed (l : list JsVal) : gmap string JsVal :=
  list_to_map (imap (fun i x => (pretty i, x)) l).

Definition rest_without (k : string) (v : JsVal) : gmap string JsVal :=
  match v with
  | JObj m => delete k m
  | JArr l => delete k (indexed l)
  | JStr s => delete k (indexed ((fun c => JStr (String c "")) <$> String.list_ascii_of_string s))
  | _ => ∅
  end.

(** ** Requests and responses *)

(** A request as the handler reads it, through the interfaces it asserts
    ([GetRequest], [PostRequest], [PatchRequest]): [query], [body] and
    [headers] are objects, whose fields may be absent or of any value. *)
Record Request : Type := {
  method : option string;
  query : gmap string JsVal;
  body : gmap string JsVal;
  headers : gmap string JsVal
}.

(** What was written to the response: [res.end(chunk)] ([res.end()] passes
    [undefined] and sends no body) or [res.json(value)]. *)
Inductive Body : Type :=
  | BEnd (chunk : JsVal)
  | BJson (value : JsVal).

(** The response object [res]: its status code, 200 until [res.status] sets
    it, and what was sent, if anything yet. *)
Record Res : Type := {
  statusCode : JsVal;
  sent : option Body
}.

(** The calls to the tenant store and to the session verifier. *)
Inductive Call : Type :=
  | CFetch (slug : JsVal)
  | CCreate (email password : JsVal) (tenant : gmap string JsVal)
  | CUpdate (id : JsVal) (patch : gmap string JsVal)
  | CVerify (token : JsVal).

Record World : Type := {
  res : Res;
  calls : list Call
}.

Definition fresh : World :=
  {| res := {| statusCode := JNum 200; sent := None |}; calls := [] |}.

(** ** Promises

    A promise, or a synchronous call that may throw, settles in one of two
    ways.  What is thrown or rejected with is an error object. *)
Inductive Settled (A : Type) : Type :=
  | Fulfilled (a : A)
  | Rejected (reason : gmap string JsVal).

Arguments Fulfilled {A} a.
Arguments Rejected {A} reason.

(** Every asynchronous step of the handler is awaited before the next one
    starts, so a promise is a computation over the response and the call log
    that settles. *)
Definition Async (A : Type) : Type := World -> Settled A * World.

(** [p.then(f)]; also the sequencing of statements, where a throw skips the
    rest. *)
Definition then_ {A B} (p : Async A) (f : A -> Async B) : Async B :=
  fun w =>
    match p w with
    | (Fulfilled a, w') => f a w'
    | (Rejected e, w') => (Rejected e, w')
    end.

(** [p.catch(g)]. *)
Definition catch_ {A} (p : Async A) (g : gmap string JsVal -> Async A) : Async A :=
  fun w =>
    match p w with
    | (Fulfilled a, w') => (Fulfilled a, w')
    | (Rejected e, w') => g e w'
    end.

(** A synchronous call that returns or throws. *)
Definition eval {A} (r : Settled A) : Async A := fun w => (r, w).

Declare Scope async_scope.
Delimit Scope async_scope with async.
Notation "x <- p ;; k" := (then_ p (fun x => k))
  (at level 100, p at next level, right associativity) : async_scope.
Notation "p ;; k" := (then_ p (fun _ => k))
  (at level 100, right associativity) : async_scope.
Open Scope async_scope.

(** [res.status(code)] *)
Definition res_status (code : JsVal) : Async unit :=
  fun w => (Fulfilled tt,
            {| res := {| statusCode := code; sent := sent (res w) |};
               calls := calls w |}).

(** [n | 0] for an integral number: its signed 32-bit reading. *)
Definition to_int32 (n : Z) : Z :=
  let m := (n mod 4294967296)%Z in
  if (2147483648 <=? m)%Z then (m - 4294967296)%Z else m.

(** What [res.end] takes as a chunk: a string, which it writes, or a falsy
    value, which it ignores.  Any other chunk makes it throw. *)
Definition writable (chunk : JsVal) : bool :=
  match chunk with
  | JStr _ => true
  | _ => negb (truthy chunk)
  end.

(** A call to a collaborator: it is logged, and settles as the collaborator
    decides. *)
Definition call {A} (c : Call) (r : Settled A) : Async A :=
  fun w => (r, {| res := res w; calls := calls w ++ [c] |}).

(** ** The collaborators

    The tenant store ([~/tenant/api/server]), the session verifier
    ([~/session/api/server]) and the schemas ([~/tenant/schemas]) are imported
    by the handler; their behaviour is a parameter of it.  A store or verifier
    promise fulfils or rejects; a schema cast returns or throws.  So are two
    things that the response object leaves to the runtime: the number it
    reads in a status code given as text, and the error it throws when it
    refuses to write. *)
Record Services : Type := {
  (** [process.env.SECRET]: a string, or [undefined] when unset *)
  SECRET : option string;
  (** the time at which the request is served, in epoch milliseconds *)
  clock : Z;
  api_fetch : JsVal -> Settled (gmap string JsVal);
  api_create : JsVal -> JsVal -> gmap string JsVal -> Settled JsVal;
  api_update : JsVal -> gmap string JsVal -> Settled JsVal;
  session_verify : JsVal -> Settled (gmap string JsVal);
  client_fetch_cast : gmap string JsVal -> Settled (gmap string JsVal);
  server_create_cast : gmap string JsVal -> Settled (gmap string JsVal);
  server_update_cast : gmap string JsVal -> Settled (gmap string JsVal);
  server_fetch_isValidSync : gmap string JsVal -> bool;
  (** [v | 0] for a string or an array [v] *)
  text_int32 : JsVal -> Z;
  (** the error thrown by [res.end] for a status code and a chunk of which it
      refuses one *)
  end_error : JsVal -> JsVal -> gmap string JsVal
}.

Definition env (o : option string) : JsVal :=
  match o with
  | Some s => JStr s
  | None => JUndef
  end.

(** The date utilities [~/utils/date] are not among the sources; the handler
    reads [dates.now] and [dates.oneWeekFromNow] while it builds one object
    literal, and both are taken at the one clock reading of the request. *)
Definition WEEK : Z := 7 * 24 * 60 * 60 * 1000.

(** Modelled from the spec: [dates.now] of [~/utils/date], the current time,
    as epoch milliseconds. *)
Definition dates_now (svc : Services) : JsVal := JNum (clock svc).

(** Modelled from the spec: [dates.oneWeekFromNow] of [~/utils/date], the
    time one week ahead of the current time, as epoch milliseconds. *)
Definition dates_oneWeekFromNow (svc : Services) : JsVal := JNum (clock svc + WEEK).

(** ** The handler *)

Section Handler.

Variable svc : Services.

(** The status code that the response writes in its head, [statusCode | 0]:
    [undefined], [null], [false] and the objects read as 0, [true] as 1. *)
Definition status_int32 (code : JsVal) : Z :=
  match code with
  | JNum n => to_int32 n
  | JBool true => 1
  | JStr _ | JArr _ => text_int32 svc code
  | JUndef | JNull | JBool false | JObj _ => 0
  end.

(** The head is written for the status codes from 100 to 999 and refused for
    the others. *)
Definition valid_status (code : JsVal) : bool :=
  (100 <=? status_int32 code)%Z && (status_int32 code <=? 999)%Z.

(** The response is written: its head with the status code read as an
    integer, which becomes the status code of the response, then [b].  Where
    the status code or the chunk is refused the call throws and nothing is
    sent. *)
Definition write (chunk : JsVal) (b : Body) : Async unit :=
  fun w =>
    if valid_status (statusCode (res w)) && writable chunk
    then (Fulfilled tt,
          {| res := {| statusCode := JNum (status_int32 (statusCode (res w)));
                       sent := Some b |};
             calls := calls w |})
    else (Rejected (end_error svc (statusCode (res w)) chunk), w).

(** [res.end(chunk)] *)
Definition res_end (chunk : JsVal) : Async unit := write chunk (BEnd chunk).

(** [res.json(value)], which ends the response with the text of [value]. *)
Definition res_json (value : JsVal) : Async unit := write (JStr "") (BJson value).

(** [return res.status(304).end()] *)
Definition not_handled : Async unit :=
  res_status (JNum 304) ;; res_end JUndef.

Definition GET (req : Request) : Async unit :=
  let slug := prop (query req) "slug" in
  let secret := prop (query req) "secret" in
  if negb (strict_eq secret (env (SECRET svc))) then not_handled
  else
    catch_
      (tenant <- call (CFetch slug) (api_fetch svc slug) ;;
       res_status (JNum 200) ;;
       shown <- eval (client_fetch_cast svc tenant) ;;
       res_json (JObj shown))
      (fun e => res_status (prop e "status") ;; res_end (prop e "statusText")).

(** The object literal that the POST branch casts into the tenant draft. *)
Definition draft (slug : JsVal) : gmap string JsVal :=
  <["slug" := slug]>
    (<["createdAt" := dates_now svc]>
       (<["tier" := JStr "commercial"]>
          (<["tierUntil" := dates_oneWeekFromNow svc]> ∅))).

(** [{id: "fake-id", ...tenant}] *)
Definition with_fake_id (tenant : gmap string JsVal) : gmap string JsVal :=
  tenant ∪ {["id" := JStr "fake-id"]}.

Definition POST (req : Request) : Async unit :=
  let email := prop (body req) "email" in
  let password := prop (body req) "password" in
  let secret := prop (body req) "secret" in
  let slug := prop (query req) "slug" in
  if negb (truthy email) || negb (truthy password) || negb (truthy slug)
     || negb (truthy secret) || negb (strict_eq secret (env (SECRET svc)))
  then not_handled
  else
    tenant <- eval (server_create_cast svc (draft slug)) ;;
    if negb (server_fetch_isValidSync svc (with_fake_id tenant)) then not_handled
    else
      catch_
        (_ <- call (CCreate email password tenant)
                   (api_create svc email password tenant) ;;
         res_status (JNum 200) ;;
         res_json (JObj {["success" := JBool true]}))
        (fun e => res_status (prop e "status") ;; res_end (prop e "statusText")).

Definition update_failed : string := "Hubo un error actualizando la tienda".
Definition session_expired : string :=
  "La sesión expiró, volvé a iniciar sesión para continuar".

Definition PATCH (req : Request) : Async unit :=
  let tenant := prop (body req) "tenant" in
  let token := prop (headers req) "authorization" in
  if negb (truthy tenant) || negb (truthy (opt_prop tenant "id"))
     || negb (truthy (opt_prop tenant "slug"))
  then not_handled
  else
    let id := opt_prop tenant "id" in
    let rest := rest_without "id" tenant in
    catch_
      (payload <- call (CVerify token) (session_verify svc token) ;;
       let uid := prop payload "uid" in
       if negb (strict_eq uid id) then res_status (JNum 403) ;; res_end JUndef
       else
         patch <- eval (server_update_cast svc rest) ;;
         catch_
           (_ <- call (CUpdate id patch) (api_update svc id patch) ;;
            res_status (JNum 200) ;;
            res_json tenant)
           (fun _ => res_status (JNum 400) ;; res_end (JStr update_failed)))
      (fun _ => res_status (JNum 401) ;; res_end (JStr session_expired)).

(** [req.method === name] *)
Definition method_is (req : Request) (name : string) : bool :=
  match method req with
  | Some m => String.eqb m name
  | None => false
  end.

(** The default export. *)
Definition handler (req : Request) : Async unit :=
  if method_is req "GET" then GET req
  else if method_is req "POST" then POST req
  else if method_is req "PATCH" then PATCH req
  else not_handled.

(** The world in which a request leaves a fresh response. *)
Definition serve (req : Request) : World := snd (handler req fresh).

(** How the promise returned by the handler settles. *)
Definition settles (req : Request) : Settled unit := fst (handler req fresh).

End Handler.

(** The response that ended with [status] and [b]. *)
Definition replied (status : JsVal) (b : Body) : Res :=
  {| statusCode := status; sent := Some b |}.

(** ** Vocabulary of the properties *)

(** A field that is missing or empty. *)
Definition missing_or_empty (v : JsVal) : Prop := v = JUndef \/ v = JStr "".

(** A POST request that passes validation: the four fields are present, the
    secret is the configured one, and the cast draft [tenant] is valid against
    the server-fetch schema. *)
Definition validated (svc : Services) (req : Request) (tenant : gmap string JsVal) : Prop :=
  method req = Some "POST"
  /\ truthy (prop (body req) "email") = true
  /\ truthy (prop (body req) "password") = true
  /\ truthy (prop (query req) "slug") = true
  /\ truthy (prop (body req) "secret") = true
  /\ prop (body req) "secret" = env (SECRET svc)
  /\ server_create_cast svc (draft svc (prop (query req) "slug")) = Fulfilled tenant
  /\ server_fetch_isValidSync svc (with_fake_id tenant) = true.

(** A PATCH request that carries [tenant] with its [id] and its [slug], as the
    guard of the branch tests them. *)
Definition patchable (req : Request) (tenant : JsVal) : Prop :=
  method req = Some "PATCH"
  /\ prop (body req) "tenant" = tenant
  /\ truthy tenant = true
  /\ truthy (opt_prop tenant "id") = true
  /\ truthy (opt_prop tenant "slug") = true.

(** The schema cast leaves the field [k] of [before] as it is in [after]. *)
Definition keeps (k : string) (before after : gmap string JsVal) : Prop :=
  after !! k = before !! k.

(** ** Sample collaborators and requests *)

Module Sample.

Definition not_found : gmap string JsVal :=
  <["status" := JNum 404]> (<["statusText" := JStr "Not Found"]> ∅).

Definition conflict : gmap string JsVal :=
  <["status" := JNum 409]> (<["statusText" := JStr "Conflict"]> ∅).

(** A store that accepts every write and knows no tenant, a verifier that
    resolves every token to the user [u1], and schemas that cast to the
    value they are given. *)
Definition svc : Services :=
  {| SECRET := Some "s3cret";
     clock := 1600000000000;
     api_fetch := fun _ => Rejected not_found;
     api_create := fun _ _ _ => Fulfilled JUndef;
     api_update := fun _ _ => Fulfilled JUndef;
     session_verify := fun _ => Fulfilled {["uid" := JStr "u1"]};
     client_fetch_cast := Fulfilled;
     server_create_cast := Fulfilled;
     server_update_cast := Fulfilled;
     server_fetch_isValidSync := fun _ => true;
     text_int32 := fun _ => 0;
     end_error := fun _ _ => {["code" := JStr "ERR_HTTP_INVALID_STATUS_CODE"]} |}.

(** The same, with a store that rejects every write. *)
Definition failing_store : Services :=
  {| SECRET := SECRET svc;
     clock := clock svc;
     api_fetch := api_fetch svc;
     api_create := fun _ _ _ => Rejected conflict;
     api_update := fun _ _ => Rejected conflict;
     session_verify := session_verify svc;
     client_fetch_cast := client_fetch_cast svc;
     server_create_cast := server_create_cast svc;
     server_update_cast := server_update_cast svc;
     server_fetch_isValidSync := server_fetch_isValidSync svc;
     text_int32 := text_int32 svc;
     end_error := end_error svc |}.

(** The same as [svc], with a verifier that rejects every token. *)
Definition no_session : Services :=
  {| SECRET := SECRET svc;
     clock := clock svc;
     api_fetch := api_fetch svc;
     api_create := api_create svc;
     api_update := api_update svc;
     session_verify := fun _ => Rejected ∅;
     client_fetch_cast := client_fetch_cast svc;
     server_create_cast := server_create_cast svc;
     server_update_cast := server_update_cast svc;
     server_fetch_isValidSync := server_fetch_isValidSync svc;
     text_int32 := text_int32 svc;
     end_error := end_error svc |}.

(** The same as [svc], with no secret configured. *)
Definition no_secret : Services :=
  {| SECRET := None;
     clock := clock svc;
     api_fetch := api_fetch svc;
     api_create := api_create svc;
     api_update := api_update svc;
     session_verify := session_verify svc;
     client_fetch_cast := client_fetch_cast svc;
     server_create_cast := server_create_cast svc;
     server_update_cast := server_update_cast svc;
     server_fetch_isValidSync := server_fetch_isValidSync svc;
     text_int32 := text_int32 svc;
     end_error := end_error svc |}.

Definition get (secret : JsVal) : Request :=
  {| method := Some "GET";
     query := <["slug" := JStr "shop"]> (<["secret" := secret]> ∅);
     body := ∅;
     headers := ∅ |}.

Definition get_bare : Request :=
  {| method := Some "GET";
     query := {["slug" := JStr "shop"]};
     body := ∅;
     headers := ∅ |}.

Definition post (email secret : JsVal) : Request :=
  {| method := Some "POST";
     query := {["slug" := JStr "shop"]};
     body := <["email" := email]>
               (<["password" := JStr "hunter2"]> (<["secret" := secret]> ∅));
     headers := ∅ |}.

Definition shop (id : string) : gmap string JsVal :=
  <["id" := JStr id]> (<["slug" := JStr "shop"]> (<["title" := JStr "Shop"]> ∅)).

Definition patch (id : string) : Request :=
  {| method := Some "PATCH";
     query := {["slug" := JStr "shop"]};
     body := {["tenant" := JObj (shop id)]};
     headers := {["authorization" := JStr "token"]} |}.

(** What a schema throws when it cannot cast. *)
Definition type_error : gmap string JsVal :=
  {["name" := JStr "TypeError"]}.

(** The same as [svc], with schemas whose casts throw. *)
Definition throwing_casts : Services :=
  {| SECRET := SECRET svc;
     clock := clock svc;
     api_fetch := fun _ => Fulfilled (shop "u1");
     api_create := api_create svc;
     api_update := api_update svc;
     session_verify := session_verify svc;
     client_fetch_cast := fun _ => Rejected type_error;
     server_create_cast := fun _ => Rejected type_error;
     server_update_cast := fun _ => Rejected type_error;
     server_fetch_isValidSync := server_fetch_isValidSync svc;
     text_int32 := text_int32 svc;
     end_error := end_error svc |}.

(** The same as [svc], with a store that knows the tenant and a server-fetch
    schema that finds every draft invalid. *)
Definition strict_schema : Services :=
  {| SECRET := SECRET svc;
     clock := clock svc;
     api_fetch := fun _ => Fulfilled (shop "u1");
     api_create := api_create svc;
     api_update := api_update svc;
     session_verify := session_verify svc;
     client_fetch_cast := fun t => Fulfilled (delete "id" t);
     server_create_cast := server_create_cast svc;
     server_update_cast := server_update_cast svc;
     server_fetch_isValidSync := fun _ => false;
     text_int32 := text_int32 svc;
     end_error := end_error svc |}.

(** An error that carries a status code, and a number where a status text is
    expected. *)
Definition numeric_text : gmap string JsVal :=
  <["status" := JNum 409]> (<["statusText" := JNum 409]> ∅).

(** The same as [svc], with a store whose [fetch] rejects with an error that
    carries nothing and whose [create] rejects with [numeric_text]. *)
Definition shapeless_errors : Services :=
  {| SECRET := SECRET svc;
     clock := clock svc;
     api_fetch := fun _ => Rejected ∅;
     api_create := fun _ _ _ => Rejected numeric_text;
     api_update := api_update svc;
     session_verify := session_verify svc;
     client_fetch_cast := client_fetch_cast svc;
     server_create_cast := server_create_cast svc;
     server_update_cast := server_update_cast svc;
     server_fetch_isValidSync := server_fetch_isValidSync svc;
     text_int32 := text_int32 svc;
     end_error := end_error svc |}.

(** The same as [svc], with a server-create schema that knows the [slug]
    only and strips the other fields. *)
Definition slug_only_schema : Services :=
  {| SECRET := SECRET svc;
     clock := clock svc;
     api_fetch := api_fetch svc;
     api_create := api_create svc;
     api_update := api_update svc;
     session_verify := session_verify svc;
     client_fetch_cast := client_fetch_cast svc;
     server_create_cast := fun d => Fulfilled {["slug" := prop d "slug"]};
     server_update_cast := server_update_cast svc;
     server_fetch_isValidSync := server_fetch_isValidSync svc;
     text_int32 := text_int32 svc;
     end_error := end_error svc |}.

Definition patch_without_slug : Request :=
  {| method := Some "PATCH";
     query := {["slug" := JStr "shop"]};
     body := {["tenant" := JObj {["id" := JStr "u1"]}]};
     headers := {["authorization" := JStr "token"]} |}.

Definition put : Request :=
  {| method := Some "PUT";
     query := {["slug" := JStr "shop"]};
     body := {["tenant" := JObj (shop "u1")]};
     headers := {["authorization" := JStr "token"]} |}.

(** The patch of [shop "u1"] again, sent to another slug with more fields. *)
Definition put_as_patch : Request :=
  {| method := Some "PATCH";
     query := {["slug" := JStr "elsewhere"]};
     body := <["secret" := JStr "guess"]> {["tenant" := JObj (shop "u1")]};
     headers := <["accept" := JStr "*/*"]> {["authorization" := JStr "token"]} |}.

End Sample.

Example get_wrong_secret :
  serve Sample.svc (Sample.get (JStr "guess"))
  = {| res := replied (JNum 304) (BEnd JUndef); calls := [] |}.
Proof. reflexivity. Qed.

Example get_unknown_slug :
  serve Sample.svc (Sample.get (JStr "s3cret"))
  = {| res := replied (JNum 404) (BEnd (JStr "Not Found"));
       calls := [CFetch (JStr "shop")] |}.
Proof. reflexivity. Qed.

Example post_valid :
  res (serve Sample.svc (Sample.post (JStr "a@b.c") (JStr "s3cret")))
  = replied (JNum 200) (BJson (JObj {["success" := JBool true]})).
Proof. reflexivity. Qed.

Example patch_owner :
  serve Sample.svc (Sample.patch "u1")
  = {| res := replied (JNum 200) (BJson (JObj (Sample.shop "u1")));
       calls := [CVerify (JStr "token");
                 CUpdate (JStr "u1") (delete "id" (Sample.shop "u1"))] |}.
Proof. reflexivity. Qed.

Example patch_stranger :
  serve Sample.svc (Sample.patch "u2")
  = {| res := replied (JNum 403) (BEnd JUndef); calls := [CVerify (JStr "token")] |}.
Proof. reflexivity. Qed.

Example delete_method :
  serve Sample.svc
    {| method := Some "DELETE"; query := ∅; body := ∅; headers := ∅ |}
  = {| res := replied (JNum 304) (BEnd JUndef); calls := [] |}.
Proof. reflexivity. Qed.

(** ** Properties *)

(** *** Values *)

Lemma strict_eq_env (v : JsVal) (o : option string) :
  strict_eq v (env o) = true <-> v = env o.
Proof.
  destruct v, o; simpl; split; intros H; try congruence.
  - apply String.eqb_eq in H. by subst.
  - injection H as ->. apply String.eqb_refl.
Qed.

Lemma strict_neq_env (v : JsVal) (o : option string) :
  strict_eq v (env o) = false <-> v ≠ env o.
Proof.
  rewrite <- strict_eq_env. destruct (strict_eq v (env o)); split; congruence.
Qed.

Lemma missing_or_empty_falsy (v : JsVal) : missing_or_empty v -> truthy v = false.
Proof. by intros [-> | ->]. Qed.

(** Past the guard of the PATCH branch the tenant is an object. *)
Lemma truthy_opt_prop (v : JsVal) (k : string) :
  truthy (opt_prop v k) = true ->
  exists t : gmap string JsVal, v = JObj t /\ truthy (prop t k) = true.
Proof. destruct v; simpl; try discriminate. eauto. Qed.

(** *** Writing the response *)

Lemma to_int32_small (n : Z) : (0 <= n < 2147483648)%Z -> to_int32 n = n.
Proof.
  intros H. unfold to_int32. rewrite Z.mod_small by lia.
  destruct (Z.leb_spec 2147483648 n); [lia | done].
Qed.

Lemma valid_status_code (svc : Services) (n : Z) :
  (100 <= n <= 999)%Z -> valid_status svc (JNum n) = true.
Proof.
  intros H. unfold valid_status, status_int32. rewrite to_int32_small by lia.
  apply andb_true_iff. split; apply Z.leb_le; lia.
Qed.

Lemma status_then_end (svc : Services) (n : Z) (chunk : JsVal) (w : World) :
  (100 <= n <= 999)%Z ->
  writable chunk = true ->
  (res_status (JNum n) ;; res_end svc chunk) w
  = (Fulfilled tt, {| res := replied (JNum n) (BEnd chunk); calls := calls w |}).
Proof.
  intros Hn Hc. unfold then_, res_status, res_end, write. simpl.
  rewrite valid_status_code, Hc by done. simpl.
  by rewrite to_int32_small by lia.
Qed.

Lemma status_then_end_refused (svc : Services) (code chunk : JsVal) (w : World) :
  valid_status svc code && writable chunk = false ->
  (res_status code ;; res_end svc chunk) w
  = (Rejected (end_error svc code chunk),
     {| res := {| statusCode := code; sent := sent (res w) |}; calls := calls w |}).
Proof.
  intros H. unfold then_, res_status, res_end, write. simpl. by rewrite H.
Qed.

(** *** Dispatch *)

Section Dispatch.

Variable svc : Services.
Variable req : Request.

Lemma handler_GET : method req = Some "GET" -> handler svc req = GET svc req.
Proof. intros H. unfold handler, method_is. by rewrite H. Qed.

Lemma handler_POST : method req = Some "POST" -> handler svc req = POST svc req.
Proof. intros H. unfold handler, method_is. by rewrite H. Qed.

Lemma handler_PATCH : method req = Some "PATCH" -> handler svc req = PATCH svc req.
Proof. intros H. unfold handler, method_is. by rewrite H. Qed.

Lemma not_handled_fresh :
  not_handled svc fresh
  = (Fulfilled tt, {| res := replied (JNum 304) (BEnd JUndef); calls := [] |}).
Proof. reflexivity. Qed.

End Dispatch.

(** *** The GET branch *)

Section Get.

Variable svc : Services.
Variable req : Request.

Let slug := prop (query req) "slug".
Let secret := prop (query req) "secret".

Lemma GET_rejected :
  secret ≠ env (SECRET svc) ->
  GET svc req fresh
  = (Fulfilled tt, {| res := replied (JNum 304) (BEnd JUndef); calls := [] |}).
Proof.
  intros H. apply strict_neq_env in H. unfold GET. fold secret. by rewrite H.
Qed.

Lemma GET_fetch_calls :
  secret = env (SECRET svc) ->
  calls (snd (GET svc req fresh)) = [CFetch slug].
Proof.
  intros H. apply strict_eq_env in H. unfold GET. fold secret slug. rewrite H.
  unfold catch_, then_, call, eval, res_status, res_end, res_json, write; simpl.
  by repeat case_match; simplify_eq/=.
Qed.

Lemma GET_fetch_failed (e : gmap string JsVal) (n : Z) :
  secret = env (SECRET svc) ->
  api_fetch svc slug = Rejected e ->
  prop e "status" = JNum n ->
  (100 <= n <= 999)%Z ->
  writable (prop e "statusText") = true ->
  GET svc req fresh
  = (Fulfilled tt,
     {| res := replied (prop e "status") (BEnd (prop e "statusText"));
        calls := [CFetch slug] |}).
Proof.
  intros H Hfetch Hstatus Hn Htext. apply strict_eq_env in H.
  unfold GET. fold secret slug. rewrite H. simpl.
  unfold catch_. unfold then_ at 1. unfold call. simpl. rewrite Hfetch.
  rewrite Hstatus. by rewrite status_then_end.
Qed.

Lemma GET_fetch_failed_refused (e : gmap string JsVal) :
  secret = env (SECRET svc) ->
  api_fetch svc slug = Rejected e ->
  valid_status svc (prop e "status") && writable (prop e "statusText") = false ->
  GET svc req fresh
  = (Rejected (end_error svc (prop e "status") (prop e "statusText")),
     {| res := {| statusCode := prop e "status"; sent := None |};
        calls := [CFetch slug] |}).
Proof.
  intros H Hfetch Hrefused. apply strict_eq_env in H.
  unfold GET. fold secret slug. rewrite H. simpl.
  unfold catch_. unfold then_ at 1. unfold call. simpl. rewrite Hfetch.
  by rewrite status_then_end_refused.
Qed.

End Get.

(** C6: a GET request whose [secret] query parameter is not the configured
    secret is answered with status 304 and no body, and the tenant store is
    not called (no collaborator is). *)
Theorem GET_wrong_secret (svc : Services) (req : Request) :
  method req = Some "GET" ->
  prop (query req) "secret" ≠ env (SECRET svc) ->
  res (serve svc req) = replied (JNum 304) (BEnd JUndef)
  /\ calls (serve svc req) = []
  /\ forall slug, CFetch slug ∉ calls (serve svc req).
Proof.
  intros Hm Hs. unfold serve. rewrite handler_GET by done.
  rewrite GET_rejected by done. simpl. repeat split. intros slug. apply not_elem_of_nil.
Qed.

Lemma GET_wrong_secret_witness :
  res (serve Sample.svc (Sample.get (JStr "guess"))) = replied (JNum 304) (BEnd JUndef)
  /\ calls (serve Sample.svc (Sample.get (JStr "guess"))) = []
  /\ forall slug, CFetch slug ∉ calls (serve Sample.svc (Sample.get (JStr "guess"))).
Proof.
  apply (GET_wrong_secret Sample.svc (Sample.get (JStr "guess"))).
  - reflexivity.
  - vm_compute. discriminate.
Defined.

(** C10: a GET request without [secret], served while no secret is
    configured, passes the gate and reaches [TenantStore.fetch]; and the gate
    of GET rejects (304, no body, no call) exactly when the provided secret
    differs from the configured one. *)
Theorem GET_gate (svc : Services) (req : Request) :
  method req = Some "GET" ->
  (query req !! "secret" = None -> SECRET svc = None ->
   calls (serve svc req) = [CFetch (prop (query req) "slug")])
  /\ (res (serve svc req) = replied (JNum 304) (BEnd JUndef)
      /\ calls (serve svc req) = []
      <-> prop (query req) "secret" ≠ env (SECRET svc)).
Proof.
  intros Hm. unfold serve. rewrite handler_GET by done. split.
  - intros Hq Hs. apply GET_fetch_calls. unfold prop. by rewrite Hq, Hs.
  - split.
    + intros [_ Hc] Heq. by rewrite GET_fetch_calls in Hc.
    + intros Hne. by rewrite GET_rejected.
Qed.

Lemma GET_gate_witness :
  calls (serve Sample.no_secret Sample.get_bare) = [CFetch (JStr "shop")]
  /\ (res (serve Sample.no_secret Sample.get_bare) = replied (JNum 304) (BEnd JUndef)
      /\ calls (serve Sample.no_secret Sample.get_bare) = []
      <-> prop (query Sample.get_bare) "secret" ≠ env (SECRET Sample.no_secret)).
Proof.
  destruct (GET_gate Sample.no_secret Sample.get_bare eq_refl) as [Hpass Hgate].
  split; [| exact Hgate].
  apply Hpass; reflexivity.
Defined.

(** *** The POST branch *)

Section Post.

Variable svc : Services.
Variable req : Request.

Let email := prop (body req) "email".
Let password := prop (body req) "password".
Let secret := prop (body req) "secret".
Let slug := prop (query req) "slug".

Lemma POST_rejected :
  truthy email = false \/ truthy password = false \/ truthy slug = false
  \/ truthy secret = false \/ secret ≠ env (SECRET svc) ->
  POST svc req fresh
  = (Fulfilled tt, {| res := replied (JNum 304) (BEnd JUndef); calls := [] |}).
Proof.
  intros H. unfold POST. fold email password secret slug.
  assert (negb (truthy email) || negb (truthy password) || negb (truthy slug)
          || negb (truthy secret) || negb (strict_eq secret (env (SECRET svc)))
          = true) as ->; [| done].
  destruct H as [-> | [-> | [-> | [-> | H]]]]; simpl;
    rewrite ?orb_true_r; try done.
  apply strict_neq_env in H. rewrite H. simpl. by rewrite orb_true_r.
Qed.

Lemma POST_validated (tenant : gmap string JsVal) :
  validated svc req tenant ->
  POST svc req fresh
  = catch_
      (_ <- call (CCreate email password tenant)
                 (api_create svc email password tenant) ;;
       res_status (JNum 200) ;;
       res_json svc (JObj {["success" := JBool true]}))
      (fun e => res_status (prop e "status") ;; res_end svc (prop e "statusText"))
      fresh.
Proof.
  intros (_ & He & Hp & Hs & Hk & Heq & Hcast & Hvalid).
  apply strict_eq_env in Heq. unfold POST. fold email password secret slug.
  fold email in He. fold password in Hp. fold slug in Hs, Hcast.
  fold secret in Hk, Heq.
  rewrite He, Hp, Hs, Hk, Heq. simpl.
  unfold then_ at 1. unfold eval. rewrite Hcast. by rewrite Hvalid.
Qed.

Lemma POST_created (tenant : gmap string JsVal) (r : JsVal) :
  validated svc req tenant ->
  api_create svc email password tenant = Fulfilled r ->
  POST svc req fresh
  = (Fulfilled tt,
     {| res := replied (JNum 200) (BJson (JObj {["success" := JBool true]}));
        calls := [CCreate email password tenant] |}).
Proof.
  intros Hv Hc. rewrite (POST_validated tenant) by done.
  unfold catch_, then_, call; simpl. by rewrite Hc.
Qed.

Lemma POST_create_failed (tenant e : gmap string JsVal) (n : Z) :
  validated svc req tenant ->
  api_create svc email password tenant = Rejected e ->
  prop e "status" = JNum n ->
  (100 <= n <= 999)%Z ->
  writable (prop e "statusText") = true ->
  POST svc req fresh
  = (Fulfilled tt,
     {| res := replied (prop e "status") (BEnd (prop e "statusText"));
        calls := [CCreate email password tenant] |}).
Proof.
  intros Hv Hc Hstatus Hn Htext. rewrite (POST_validated tenant) by done.
  unfold catch_. unfold then_ at 1. unfold call. simpl. rewrite Hc.
  rewrite Hstatus. by rewrite status_then_end.
Qed.

Lemma POST_create_failed_refused (tenant e : gmap string JsVal) :
  validated svc req tenant ->
  api_create svc email password tenant = Rejected e ->
  valid_status svc (prop e "status") && writable (prop e "statusText") = false ->
  POST svc req fresh
  = (Rejected (end_error svc (prop e "status") (prop e "statusText")),
     {| res := {| statusCode := prop e "status"; sent := None |};
        calls := [CCreate email password tenant] |}).
Proof.
  intros Hv Hc Hrefused. rewrite (POST_validated tenant) by done.
  unfold catch_. unfold then_ at 1. unfold call. simpl. rewrite Hc.
  by rewrite status_then_end_refused.
Qed.

End Post.

(** C7: a POST request in which one of [email], [password], [slug] and
    [secret] is missing or empty, or whose [secret] is not the configured one,
    is answered with status 304 and no body, and [TenantStore.create] is not
    called (no collaborator is). *)
Theorem POST_missing_field (svc : Services) (req : Request) :
  method req = Some "POST" ->
  missing_or_empty (prop (body req) "email")
  \/ missing_or_empty (prop (body req) "password")
  \/ missing_or_empty (prop (query req) "slug")
  \/ missing_or_empty (prop (body req) "secret")
  \/ prop (body req) "secret" ≠ env (SECRET svc) ->
  res (serve svc req) = replied (JNum 304) (BEnd JUndef)
  /\ calls (serve svc req) = [].
Proof.
  intros Hm H. unfold serve. rewrite handler_POST by done.
  rewrite POST_rejected; [done |].
  destruct H as [H | [H | [H | [H | H]]]];
    try apply missing_or_empty_falsy in H; tauto.
Qed.

Lemma POST_missing_field_witness :
  res (serve Sample.svc (Sample.post (JStr "") (JStr "s3cret")))
  = replied (JNum 304) (BEnd JUndef)
  /\ calls (serve Sample.svc (Sample.post (JStr "") (JStr "s3cret"))) = [].
Proof.
  apply (POST_missing_field Sample.svc (Sample.post (JStr "") (JStr "s3cret"))).
  - reflexivity.
  - left. right. reflexivity.
Defined.

(** X4: a server-create cast that throws is not caught: the promise of the
    handler rejects with what was thrown, and nothing is sent or called. *)
Lemma POST_cast_threw (svc : Services) (req : Request) (e : gmap string JsVal) :
  method req = Some "POST" ->
  truthy (prop (body req) "email") = true ->
  truthy (prop (body req) "password") = true ->
  truthy (prop (query req) "slug") = true ->
  truthy (prop (body req) "secret") = true ->
  prop (body req) "secret" = env (SECRET svc) ->
  server_create_cast svc (draft svc (prop (query req) "slug")) = Rejected e ->
  settles svc req = Rejected e /\ serve svc req = fresh.
Proof.
  intros Hm He Hp Hs Hk Heq Hcast. apply strict_eq_env in Heq.
  unfold settles, serve. rewrite handler_POST by done. unfold POST.
  rewrite He, Hp, Hs, Hk, Heq. simpl. unfold then_ at 1 3. unfold eval.
  by rewrite Hcast.
Qed.

Lemma POST_calls (svc : Services) (req : Request) (tenant : gmap string JsVal) :
  validated svc req tenant ->
  calls (snd (POST svc req fresh))
  = [CCreate (prop (body req) "email") (prop (body req) "password") tenant].
Proof.
  intros Hv. rewrite (POST_validated svc req tenant) by done.
  unfold catch_, then_, call, res_status, res_end, res_json, write; simpl.
  by repeat case_match; simplify_eq/=.
Qed.

Lemma draft_stamps (svc : Services) (slug : JsVal) :
  draft svc slug !! "tier" = Some (JStr "commercial")
  /\ draft svc slug !! "createdAt" = Some (JNum (clock svc))
  /\ draft svc slug !! "tierUntil" = Some (JNum (clock svc + 7 * 24 * 60 * 60 * 1000)).
Proof. unfold draft. by simplify_map_eq. Qed.

Lemma sample_post_validated (svc : Services) :
  SECRET svc = Some "s3cret" ->
  server_create_cast svc = Fulfilled ->
  server_fetch_isValidSync svc = (fun _ => true) ->
  validated svc (Sample.post (JStr "a@b.c") (JStr "s3cret"))
    (draft svc (JStr "shop")).
Proof. intros Hs Hc Hv. unfold validated. by rewrite Hs, Hc, Hv. Qed.

(** C8, as the claim states it, fails: the response object refuses what is
    not a status code or not a text.  When [TenantStore.fetch] rejects with an
    error that carries no status, and when [TenantStore.create] rejects with
    an error whose [statusText] is a number, [res.end] throws in the [.catch],
    the promise of the handler rejects and no response is sent. *)
Lemma store_error_refused :
  (method (Sample.get (JStr "s3cret")) = Some "GET"
   /\ prop (query (Sample.get (JStr "s3cret"))) "secret"
      = env (SECRET Sample.shapeless_errors)
   /\ api_fetch Sample.shapeless_errors (prop (query (Sample.get (JStr "s3cret"))) "slug")
      = Rejected ∅
   /\ sent (res (serve Sample.shapeless_errors (Sample.get (JStr "s3cret")))) = None
   /\ res (serve Sample.shapeless_errors (Sample.get (JStr "s3cret")))
      ≠ replied (prop ∅ "status") (BEnd (prop ∅ "statusText")))
  /\ (validated Sample.shapeless_errors (Sample.post (JStr "a@b.c") (JStr "s3cret"))
        (draft Sample.shapeless_errors (JStr "shop"))
      /\ api_create Sample.shapeless_errors (JStr "a@b.c") (JStr "hunter2")
           (draft Sample.shapeless_errors (JStr "shop"))
         = Rejected Sample.numeric_text
      /\ sent (res (serve Sample.shapeless_errors
                      (Sample.post (JStr "a@b.c") (JStr "s3cret")))) = None
      /\ res (serve Sample.shapeless_errors (Sample.post (JStr "a@b.c") (JStr "s3cret")))
         ≠ replied (prop Sample.numeric_text "status")
             (BEnd (prop Sample.numeric_text "statusText"))).
Proof.
  split.
  - do 4 (split; [reflexivity |]).
    intros H. apply (f_equal sent) in H. vm_compute in H. discriminate H.
  - split; [apply sample_post_validated; reflexivity |].
    do 2 (split; [reflexivity |]).
    intros H. apply (f_equal sent) in H. vm_compute in H. discriminate H.
Qed.

(** C8, amended: when [TenantStore.fetch] fails on a GET request with the
    right secret, and when [TenantStore.create] fails on a validated POST
    request, with an error whose [status] is an integer from 100 to 999 and
    whose [statusText] is a string or is absent (falsy), the response has
    exactly that status and that [statusText] as body. *)
Theorem store_error_propagated
    (svc : Services) (req : Request) (e : gmap string JsVal) (n : Z) :
  prop e "status" = JNum n ->
  (100 <= n <= 999)%Z ->
  writable (prop e "statusText") = true ->
  (method req = Some "GET" ->
   prop (query req) "secret" = env (SECRET svc) ->
   api_fetch svc (prop (query req) "slug") = Rejected e ->
   res (serve svc req) = replied (prop e "status") (BEnd (prop e "statusText")))
  /\ (forall tenant,
      validated svc req tenant ->
      api_create svc (prop (body req) "email") (prop (body req) "password") tenant
      = Rejected e ->
      res (serve svc req) = replied (prop e "status") (BEnd (prop e "statusText"))).
Proof.
  intros Hstatus Hn Htext. split.
  - intros Hm Hs Hf. unfold serve. rewrite handler_GET by done.
    by rewrite (GET_fetch_failed svc req e n).
  - intros tenant Hv Hc. unfold serve. rewrite handler_POST by apply Hv.
    by rewrite (POST_create_failed svc req tenant e n).
Qed.

Lemma store_error_propagated_witness :
  res (serve Sample.svc (Sample.get (JStr "s3cret")))
  = replied (JNum 404) (BEnd (JStr "Not Found"))
  /\ res (serve Sample.failing_store (Sample.post (JStr "a@b.c") (JStr "s3cret")))
     = replied (JNum 409) (BEnd (JStr "Conflict")).
Proof.
  split.
  - apply (proj1 (store_error_propagated Sample.svc (Sample.get (JStr "s3cret"))
                    Sample.not_found 404 eq_refl ltac:(lia) eq_refl));
      reflexivity.
  - apply (proj2 (store_error_propagated Sample.failing_store
                    (Sample.post (JStr "a@b.c") (JStr "s3cret")) Sample.conflict
                    409 eq_refl ltac:(lia) eq_refl)
             (draft Sample.failing_store (JStr "shop"))).
    + apply sample_post_validated; reflexivity.
    + reflexivity.
Defined.

(** C1, as the claim states it, fails twice.  A POST request that passes
    validation is answered with the store's 409 when the store rejects the
    creation; and with a server-create schema that strips the fields it does
    not know, the draft that is delegated (and created, with a 200) has no
    [tier] and no [tierUntil]. *)
Lemma POST_valid_create_rejected :
  (validated Sample.failing_store (Sample.post (JStr "a@b.c") (JStr "s3cret"))
     (draft Sample.failing_store (JStr "shop"))
   /\ calls (serve Sample.failing_store (Sample.post (JStr "a@b.c") (JStr "s3cret")))
      = [CCreate (JStr "a@b.c") (JStr "hunter2")
           (draft Sample.failing_store (JStr "shop"))]
   /\ res (serve Sample.failing_store (Sample.post (JStr "a@b.c") (JStr "s3cret")))
      = replied (JNum 409) (BEnd (JStr "Conflict"))
   /\ res (serve Sample.failing_store (Sample.post (JStr "a@b.c") (JStr "s3cret")))
      ≠ replied (JNum 200) (BJson (JObj {["success" := JBool true]})))
  /\ (validated Sample.slug_only_schema (Sample.post (JStr "a@b.c") (JStr "s3cret"))
        {["slug" := JStr "shop"]}
      /\ calls (serve Sample.slug_only_schema (Sample.post (JStr "a@b.c") (JStr "s3cret")))
         = [CCreate (JStr "a@b.c") (JStr "hunter2") {["slug" := JStr "shop"]}]
      /\ res (serve Sample.slug_only_schema (Sample.post (JStr "a@b.c") (JStr "s3cret")))
         = replied (JNum 200) (BJson (JObj {["success" := JBool true]}))
      /\ ({["slug" := JStr "shop"]} : gmap string JsVal) !! "tier"
         ≠ Some (JStr "commercial")
      /\ ({["slug" := JStr "shop"]} : gmap string JsVal) !! "tierUntil" = None).
Proof.
  split.
  - split; [apply sample_post_validated; reflexivity |].
    split; [reflexivity |]. split; [reflexivity |].
    intros H. apply (f_equal statusCode) in H. vm_compute in H. discriminate H.
  - split; [by repeat split |].
    split; [reflexivity |]. split; [reflexivity |]. split; [| reflexivity].
    intros H. vm_compute in H. discriminate H.
Qed.

(** C1, amended: a POST request that passes validation makes one call to
    [TenantStore.create], with the credentials of the body and the
    server-create cast of a draft stamped with [tier] "commercial" and a
    [tierUntil] exactly 7 days after its [createdAt]; the delegated draft has
    that [tier] where the cast keeps [tier], and that [createdAt] and
    [tierUntil] where the cast keeps the two; and when the creation succeeds
    the response is 200 with body [{success: true}]. *)
Theorem POST_creates_commercial_trial
    (svc : Services) (req : Request) (tenant : gmap string JsVal) :
  validated svc req tenant ->
  server_create_cast svc (draft svc (prop (query req) "slug")) = Fulfilled tenant
  /\ calls (serve svc req)
     = [CCreate (prop (body req) "email") (prop (body req) "password") tenant]
  /\ draft svc (prop (query req) "slug") !! "tier" = Some (JStr "commercial")
  /\ draft svc (prop (query req) "slug") !! "createdAt" = Some (JNum (clock svc))
  /\ draft svc (prop (query req) "slug") !! "tierUntil"
     = Some (JNum (clock svc + 7 * 24 * 60 * 60 * 1000))
  /\ (keeps "tier" (draft svc (prop (query req) "slug")) tenant ->
      tenant !! "tier" = Some (JStr "commercial"))
  /\ (keeps "createdAt" (draft svc (prop (query req) "slug")) tenant ->
      keeps "tierUntil" (draft svc (prop (query req) "slug")) tenant ->
      tenant !! "createdAt" = Some (JNum (clock svc))
      /\ tenant !! "tierUntil" = Some (JNum (clock svc + 7 * 24 * 60 * 60 * 1000)))
  /\ (forall r,
        api_create svc (prop (body req) "email") (prop (body req) "password") tenant
        = Fulfilled r ->
        res (serve svc req)
        = replied (JNum 200) (BJson (JObj {["success" := JBool true]}))).
Proof.
  intros Hv.
  destruct (draft_stamps svc (prop (query req) "slug")) as (Dtier & Dcreated & Duntil).
  split; [apply Hv |]. unfold serve. rewrite handler_POST by apply Hv.
  split; [by apply POST_calls |]. do 3 (split; [done |]).
  unfold keeps. split; [by intros -> |]. split; [by intros -> -> |].
  intros r Hc. by rewrite (POST_created svc req tenant r).
Qed.

Lemma POST_creates_commercial_trial_witness :
  calls (serve Sample.svc (Sample.post (JStr "a@b.c") (JStr "s3cret")))
  = [CCreate (JStr "a@b.c") (JStr "hunter2") (draft Sample.svc (JStr "shop"))]
  /\ draft Sample.svc (JStr "shop") !! "tier" = Some (JStr "commercial")
  /\ draft Sample.svc (JStr "shop") !! "createdAt" = Some (JNum 1600000000000)
  /\ draft Sample.svc (JStr "shop") !! "tierUntil" = Some (JNum 1600604800000)
  /\ res (serve Sample.svc (Sample.post (JStr "a@b.c") (JStr "s3cret")))
     = replied (JNum 200) (BJson (JObj {["success" := JBool true]})).
Proof.
  destruct (POST_creates_commercial_trial Sample.svc
              (Sample.post (JStr "a@b.c") (JStr "s3cret"))
              (draft Sample.svc (JStr "shop")))
    as (_ & Hcalls & _ & _ & _ & Htier & Hdates & Hres).
  - apply sample_post_validated; reflexivity.
  - split; [exact Hcalls |]. split; [apply Htier; reflexivity |].
    split; [apply Hdates; reflexivity |]. split; [apply Hdates; reflexivity |].
    apply (Hres JUndef). reflexivity.
Defined.

(** *** The PATCH branch *)

Section Patch.

Variable svc : Services.
Variable req : Request.
Variable tenant : JsVal.

Hypothesis carried : patchable req tenant.

Let token := prop (headers req) "authorization".
Let id := opt_prop tenant "id".
Let rest := rest_without "id" tenant.

Lemma PATCH_guarded :
  PATCH svc req fresh
  = catch_
      (payload <- call (CVerify token) (session_verify svc token) ;;
       if negb (strict_eq (prop payload "uid") id)
       then res_status (JNum 403) ;; res_end svc JUndef
       else
         patch <- eval (server_update_cast svc rest) ;;
         catch_
           (_ <- call (CUpdate id patch) (api_update svc id patch) ;;
            res_status (JNum 200) ;;
            res_json svc tenant)
           (fun _ => res_status (JNum 400) ;; res_end svc (JStr update_failed)))
      (fun _ => res_status (JNum 401) ;; res_end svc (JStr session_expired))
      fresh.
Proof.
  destruct carried as (_ & Hbody & Ht & Hid & Hslug).
  unfold PATCH. rewrite Hbody, Ht, Hid, Hslug. reflexivity.
Qed.

Lemma PATCH_unverified (e : gmap string JsVal) :
  session_verify svc token = Rejected e ->
  PATCH svc req fresh
  = (Fulfilled tt,
     {| res := replied (JNum 401) (BEnd (JStr session_expired));
        calls := [CVerify token] |}).
Proof.
  intros Hv. rewrite PATCH_guarded. unfold catch_, then_, call; simpl.
  by rewrite Hv.
Qed.

Section Verified.

Variable payload : gmap string JsVal.
Hypothesis verified : session_verify svc token = Fulfilled payload.

Lemma PATCH_forbidden :
  strict_eq (prop payload "uid") id = false ->
  PATCH svc req fresh
  = (Fulfilled tt,
     {| res := replied (JNum 403) (BEnd JUndef); calls := [CVerify token] |}).
Proof.
  intros Hne. rewrite PATCH_guarded. unfold catch_, then_, call; simpl.
  by rewrite verified, Hne.
Qed.

Lemma PATCH_cast_threw (e : gmap string JsVal) :
  strict_eq (prop payload "uid") id = true ->
  server_update_cast svc rest = Rejected e ->
  PATCH svc req fresh
  = (Fulfilled tt,
     {| res := replied (JNum 401) (BEnd (JStr session_expired));
        calls := [CVerify token] |}).
Proof.
  intros Heq Hc. rewrite PATCH_guarded. unfold catch_, then_, call, eval; simpl.
  by rewrite verified, Heq, Hc.
Qed.

Lemma PATCH_updated (patch : gmap string JsVal) (r : JsVal) :
  strict_eq (prop payload "uid") id = true ->
  server_update_cast svc rest = Fulfilled patch ->
  api_update svc id patch = Fulfilled r ->
  PATCH svc req fresh
  = (Fulfilled tt,
     {| res := replied (JNum 200) (BJson tenant);
        calls := [CVerify token; CUpdate id patch] |}).
Proof.
  intros Heq Hc Hu. rewrite PATCH_guarded.
  unfold catch_, then_, call, eval; simpl.
  by rewrite verified, Heq, Hc, Hu.
Qed.

Lemma PATCH_update_failed (patch e : gmap string JsVal) :
  strict_eq (prop payload "uid") id = true ->
  server_update_cast svc rest = Fulfilled patch ->
  api_update svc id patch = Rejected e ->
  PATCH svc req fresh
  = (Fulfilled tt,
     {| res := replied (JNum 400) (BEnd (JStr update_failed));
        calls := [CVerify token; CUpdate id patch] |}).
Proof.
  intros Heq Hc Hu. rewrite PATCH_guarded.
  unfold catch_, then_, call, eval; simpl.
  by rewrite verified, Heq, Hc, Hu.
Qed.

End Verified.

End Patch.

(** C2: a PATCH request carrying [tenant], [tenant.id] and [tenant.slug],
    whose token verifies to a user identifier equal to [tenant.id] and whose
    [TenantStore.update] call succeeds (the cast of the remaining fields
    returns [patch] and the update with [patch] resolves), is answered with
    status 200 and the submitted tenant as received, whatever the cast patch
    and whatever the store resolved with. *)
Theorem PATCH_owner_updated
    (svc : Services) (req : Request) (tenant : JsVal)
    (payload patch : gmap string JsVal) (r : JsVal) :
  patchable req tenant ->
  session_verify svc (prop (headers req) "authorization") = Fulfilled payload ->
  strict_eq (prop payload "uid") (opt_prop tenant "id") = true ->
  server_update_cast svc (rest_without "id" tenant) = Fulfilled patch ->
  api_update svc (opt_prop tenant "id") patch = Fulfilled r ->
  res (serve svc req) = replied (JNum 200) (BJson (prop (body req) "tenant")).
Proof.
  intros Hp Hv Heq Hc Hu. unfold serve. rewrite handler_PATCH by apply Hp.
  rewrite (PATCH_updated svc req tenant Hp payload Hv patch r) by done.
  destruct Hp as (_ & -> & _). reflexivity.
Qed.

Lemma PATCH_owner_updated_witness :
  res (serve Sample.svc (Sample.patch "u1"))
  = replied (JNum 200) (BJson (JObj (Sample.shop "u1"))).
Proof.
  apply (PATCH_owner_updated Sample.svc (Sample.patch "u1") (JObj (Sample.shop "u1"))
           {["uid" := JStr "u1"]} (delete "id" (Sample.shop "u1")) JUndef).
  - repeat split.
  - reflexivity.
  - reflexivity.
  - reflexivity.
  - reflexivity.
Defined.

(** C3: a PATCH request carrying [tenant], [tenant.id] and [tenant.slug],
    whose token verifies to a user identifier other than [tenant.id], is
    answered with status 403 and no body, and [TenantStore.update] is not
    called. *)
Theorem PATCH_stranger_forbidden
    (svc : Services) (req : Request) (tenant : JsVal) (payload : gmap string JsVal) :
  patchable req tenant ->
  session_verify svc (prop (headers req) "authorization") = Fulfilled payload ->
  strict_eq (prop payload "uid") (opt_prop tenant "id") = false ->
  res (serve svc req) = replied (JNum 403) (BEnd JUndef)
  /\ forall id patch, CUpdate id patch ∉ calls (serve svc req).
Proof.
  intros Hp Hv Hne. unfold serve. rewrite handler_PATCH by apply Hp.
  rewrite (PATCH_forbidden svc req tenant Hp payload Hv) by done.
  split; [done |]. intros id patch Hin. simpl in Hin.
  apply list_elem_of_singleton in Hin. discriminate Hin.
Qed.

Lemma PATCH_stranger_forbidden_witness :
  res (serve Sample.svc (Sample.patch "u2")) = replied (JNum 403) (BEnd JUndef)
  /\ forall id patch, CUpdate id patch ∉ calls (serve Sample.svc (Sample.patch "u2")).
Proof.
  apply (PATCH_stranger_forbidden Sample.svc (Sample.patch "u2")
           (JObj (Sample.shop "u2")) {["uid" := JStr "u1"]}).
  - repeat split.
  - reflexivity.
  - reflexivity.
Defined.

(** C4: a PATCH request carrying [tenant], [tenant.id] and [tenant.slug],
    whose [SessionVerifier.verify] call fails, is answered with status 401 and
    the fixed message about the expired session, and [TenantStore.update] is
    not called. *)
Theorem PATCH_session_expired
    (svc : Services) (req : Request) (tenant : JsVal) (e : gmap string JsVal) :
  patchable req tenant ->
  session_verify svc (prop (headers req) "authorization") = Rejected e ->
  res (serve svc req)
  = replied (JNum 401)
      (BEnd (JStr "La sesión expiró, volvé a iniciar sesión para continuar"))
  /\ forall id patch, CUpdate id patch ∉ calls (serve svc req).
Proof.
  intros Hp Hv. unfold serve. rewrite handler_PATCH by apply Hp.
  rewrite (PATCH_unverified svc req tenant Hp e) by done.
  split; [done |]. intros id patch Hin. simpl in Hin.
  apply list_elem_of_singleton in Hin. discriminate Hin.
Qed.

Lemma PATCH_session_expired_witness :
  res (serve Sample.no_session (Sample.patch "u1"))
  = replied (JNum 401)
      (BEnd (JStr "La sesión expiró, volvé a iniciar sesión para continuar"))
  /\ forall id patch,
       CUpdate id patch ∉ calls (serve Sample.no_session (Sample.patch "u1")).
Proof.
  apply (PATCH_session_expired Sample.no_session (Sample.patch "u1")
           (JObj (Sample.shop "u1")) ∅).
  - repeat split.
  - reflexivity.
Defined.

(** C5: a PATCH request carrying [tenant], [tenant.id] and [tenant.slug],
    verified as its owner, whose [TenantStore.update] call fails, is answered
    with status 400 and the fixed message about the failed update, whatever
    the store's error is. *)
Theorem PATCH_update_error_flattened
    (svc : Services) (req : Request) (tenant : JsVal)
    (payload patch e : gmap string JsVal) :
  patchable req tenant ->
  session_verify svc (prop (headers req) "authorization") = Fulfilled payload ->
  strict_eq (prop payload "uid") (opt_prop tenant "id") = true ->
  server_update_cast svc (rest_without "id" tenant) = Fulfilled patch ->
  api_update svc (opt_prop tenant "id") patch = Rejected e ->
  res (serve svc req)
  = replied (JNum 400) (BEnd (JStr "Hubo un error actualizando la tienda")).
Proof.
  intros Hp Hv Heq Hc Hu. unfold serve. rewrite handler_PATCH by apply Hp.
  by rewrite (PATCH_update_failed svc req tenant Hp payload Hv patch e).
Qed.

Lemma PATCH_update_error_flattened_witness :
  res (serve Sample.failing_store (Sample.patch "u1"))
  = replied (JNum 400) (BEnd (JStr "Hubo un error actualizando la tienda")).
Proof.
  apply (PATCH_update_error_flattened Sample.failing_store (Sample.patch "u1")
           (JObj (Sample.shop "u1")) {["uid" := JStr "u1"]}
           (delete "id" (Sample.shop "u1")) Sample.conflict).
  - repeat split.
  - reflexivity.
  - reflexivity.
  - reflexivity.
  - reflexivity.
Defined.

(** *** What reaches [TenantStore.update] *)

Lemma method_is_true (req : Request) (name : string) :
  method_is req name = true -> method req = Some name.
Proof.
  unfold method_is. destruct (method req) as [m |]; [| discriminate].
  intros H. apply String.eqb_eq in H. by subst.
Qed.

Ltac run_async H :=
  unfold catch_, then_, call, eval, not_handled, res_status, res_end, res_json, write in H;
  simpl in H.

Ltac no_update H :=
  run_async H; repeat case_match; simplify_eq/=;
  repeat (apply elem_of_cons in H as [H | H]; [discriminate H |]);
  by apply not_elem_of_nil in H.

Lemma GET_no_update (svc : Services) (req : Request) (i : JsVal) (p : gmap string JsVal) :
  CUpdate i p ∉ calls (snd (GET svc req fresh)).
Proof. intros H. unfold GET in H. no_update H. Qed.

Lemma POST_no_update (svc : Services) (req : Request) (i : JsVal) (p : gmap string JsVal) :
  CUpdate i p ∉ calls (snd (POST svc req fresh)).
Proof. intros H. unfold POST in H. no_update H. Qed.

Lemma update_only_by_PATCH (svc : Services) (req : Request) (i : JsVal) (p : gmap string JsVal) :
  CUpdate i p ∈ calls (serve svc req) ->
  method req = Some "PATCH" /\ CUpdate i p ∈ calls (snd (PATCH svc req fresh)).
Proof.
  unfold serve, handler. intros H.
  destruct (method_is req "GET"); [by apply GET_no_update in H |].
  destruct (method_is req "POST"); [by apply POST_no_update in H |].
  destruct (method_is req "PATCH") eqn:Hm; [| no_update H].
  split; [by apply method_is_true | done].
Qed.

(** C9: whenever a request reaches [TenantStore.update], the submitted
    tenant is an object, the identifier passed is its [id], and the patch
    passed is the server-update cast of the tenant without its [id]: the
    [slug] and every other field but [id] are handed to the cast as received. *)
Theorem PATCH_forwards_all_but_id
    (svc : Services) (req : Request) (id : JsVal) (patch : gmap string JsVal) :
  CUpdate id patch ∈ calls (serve svc req) ->
  exists t : gmap string JsVal,
    prop (body req) "tenant" = JObj t
    /\ id = prop t "id"
    /\ server_update_cast svc (delete "id" t) = Fulfilled patch
    /\ delete "id" t !! "id" = None
    /\ (is_Some (t !! "slug") /\ delete "id" t !! "slug" = t !! "slug")
    /\ forall k, k ≠ "id" -> delete "id" t !! k = t !! k.
Proof.
  intros H. apply update_only_by_PATCH in H as [_ H]. unfold PATCH in H.
  destruct (truthy (prop (body req) "tenant")) eqn:Ht; [| no_update H].
  destruct (truthy (opt_prop (prop (body req) "tenant") "id")) eqn:Hid;
    [| no_update H].
  destruct (truthy (opt_prop (prop (body req) "tenant") "slug")) eqn:Hslug;
    [| no_update H].
  apply truthy_opt_prop in Hid as (t & Htenant & _). rewrite Htenant in *.
  simpl in H. run_async H.
  destruct (session_verify svc _) as [payload | e]; [| no_update H].
  destruct (strict_eq (prop payload "uid") (prop t "id")); [| no_update H].
  simpl in H.
  destruct (server_update_cast svc (delete "id" t)) as [patch' | e] eqn:Hcast;
    [| no_update H].
  assert (CUpdate id patch = CUpdate (prop t "id") patch') as Hsame.
  { destruct (api_update svc (prop t "id") patch'); simpl in H;
      apply elem_of_cons in H as [H | H]; try discriminate H;
      apply elem_of_cons in H as [H | H]; try done;
      by apply not_elem_of_nil in H. }
  injection Hsame as -> ->.
  exists t. split; [done |]. split; [done |]. split; [done |].
  split; [apply lookup_delete_eq |]. split.
  - split.
    + simpl in Hslug. unfold prop in Hslug. by destruct (t !! "slug").
    + by apply lookup_delete_ne.
  - intros k Hk. by apply lookup_delete_ne.
Qed.

Lemma PATCH_forwards_all_but_id_witness :
  exists t : gmap string JsVal,
    prop (body (Sample.patch "u1")) "tenant" = JObj t
    /\ JStr "u1" = prop t "id"
    /\ server_update_cast Sample.svc (delete "id" t)
       = Fulfilled (delete "id" (Sample.shop "u1"))
    /\ delete "id" t !! "id" = None
    /\ (is_Some (t !! "slug") /\ delete "id" t !! "slug" = t !! "slug")
    /\ forall k, k ≠ "id" -> delete "id" t !! k = t !! k.
Proof.
  apply (PATCH_forwards_all_but_id Sample.svc (Sample.patch "u1") (JStr "u1")
           (delete "id" (Sample.shop "u1"))).
  vm_compute. apply list_elem_of_further, list_elem_of_here.
Defined.

(** ** The remaining paths of the handler *)

Lemma method_is_false (req : Request) (name : string) :
  method req ≠ Some name -> method_is req name = false.
Proof.
  unfold method_is. destruct (method req) as [m |]; [| done].
  intros H. apply String.eqb_neq. congruence.
Qed.

(** Every path of the handler from a fresh response, one goal per path. *)
Ltac all_paths :=
  unfold serve, settles, handler, GET, POST, PATCH, not_handled;
  unfold catch_, then_, call, eval, res_status, res_end, res_json, write;
  simpl; repeat case_match; simplify_eq/=.

Ltac in_log H :=
  repeat (apply elem_of_cons in H as [H | H]; simplify_eq/=);
  try by apply not_elem_of_nil in H.

(** X1: a GET request with the right secret whose tenant the store finds is
    answered with status 200 and, as JSON, what the client-fetch cast makes of
    the stored tenant; the store is asked once, for the slug of the query. *)
Theorem GET_found
    (svc : Services) (req : Request) (tenant shown : gmap string JsVal) :
  method req = Some "GET" ->
  prop (query req) "secret" = env (SECRET svc) ->
  api_fetch svc (prop (query req) "slug") = Fulfilled tenant ->
  client_fetch_cast svc tenant = Fulfilled shown ->
  res (serve svc req) = replied (JNum 200) (BJson (JObj shown))
  /\ calls (serve svc req) = [CFetch (prop (query req) "slug")].
Proof.
  intros Hm Hs Hf Hc. apply strict_eq_env in Hs.
  unfold serve. rewrite handler_GET by done. unfold GET. rewrite Hs. simpl.
  unfold catch_, then_, call, eval. simpl. rewrite Hf. simpl. by rewrite Hc.
Qed.

Lemma GET_found_witness :
  res (serve Sample.strict_schema (Sample.get (JStr "s3cret")))
  = replied (JNum 200) (BJson (JObj (delete "id" (Sample.shop "u1"))))
  /\ calls (serve Sample.strict_schema (Sample.get (JStr "s3cret")))
     = [CFetch (JStr "shop")].
Proof.
  apply (GET_found Sample.strict_schema (Sample.get (JStr "s3cret"))
           (Sample.shop "u1") (delete "id" (Sample.shop "u1")));
    reflexivity.
Defined.

(** X2: when the store finds the tenant of a GET request but the client-fetch
    cast throws an error that has no [status], as the errors of a schema do,
    the thrown error reaches the handler of store errors, which sets an
    undefined status in place of the 200 set before the cast; the response
    object refuses it, so the promise of the handler rejects and no response
    is sent. *)
Theorem GET_cast_threw
    (svc : Services) (req : Request) (tenant e : gmap string JsVal) :
  method req = Some "GET" ->
  prop (query req) "secret" = env (SECRET svc) ->
  api_fetch svc (prop (query req) "slug") = Fulfilled tenant ->
  client_fetch_cast svc tenant = Rejected e ->
  prop e "status" = JUndef ->
  settles svc req = Rejected (end_error svc JUndef (prop e "statusText"))
  /\ res (serve svc req) = {| statusCode := JUndef; sent := None |}
  /\ calls (serve svc req) = [CFetch (prop (query req) "slug")].
Proof.
  intros Hm Hs Hf Hc Hstatus. apply strict_eq_env in Hs.
  unfold serve, settles. rewrite handler_GET by done. unfold GET. rewrite Hs.
  simpl. unfold catch_, then_, call, eval, res_status, res_end, write. simpl.
  rewrite Hf. simpl. rewrite Hc. simpl. by rewrite Hstatus.
Qed.

Lemma GET_cast_threw_witness :
  settles Sample.throwing_casts (Sample.get (JStr "s3cret"))
  = Rejected {["code" := JStr "ERR_HTTP_INVALID_STATUS_CODE"]}
  /\ res (serve Sample.throwing_casts (Sample.get (JStr "s3cret")))
     = {| statusCode := JUndef; sent := None |}
  /\ calls (serve Sample.throwing_casts (Sample.get (JStr "s3cret")))
     = [CFetch (JStr "shop")].
Proof.
  apply (GET_cast_threw Sample.throwing_casts (Sample.get (JStr "s3cret"))
           (Sample.shop "u1") Sample.type_error);
    reflexivity.
Defined.

(** X3: a POST request that passes the gate but whose cast draft, completed
    with the placeholder identifier, is not valid against the server-fetch
    schema is answered with status 304 and no body, and nothing is created. *)
Theorem POST_invalid_draft
    (svc : Services) (req : Request) (tenant : gmap string JsVal) :
  method req = Some "POST" ->
  truthy (prop (body req) "email") = true ->
  truthy (prop (body req) "password") = true ->
  truthy (prop (query req) "slug") = true ->
  truthy (prop (body req) "secret") = true ->
  prop (body req) "secret" = env (SECRET svc) ->
  server_create_cast svc (draft svc (prop (query req) "slug")) = Fulfilled tenant ->
  server_fetch_isValidSync svc (with_fake_id tenant) = false ->
  res (serve svc req) = replied (JNum 304) (BEnd JUndef)
  /\ calls (serve svc req) = [].
Proof.
  intros Hm He Hp Hs Hk Heq Hcast Hvalid. apply strict_eq_env in Heq.
  unfold serve. rewrite handler_POST by done. unfold POST.
  rewrite He, Hp, Hs, Hk, Heq. simpl. unfold then_, eval.
  rewrite Hcast, Hvalid. split; reflexivity.
Qed.

Lemma POST_invalid_draft_witness :
  res (serve Sample.strict_schema (Sample.post (JStr "a@b.c") (JStr "s3cret")))
  = replied (JNum 304) (BEnd JUndef)
  /\ calls (serve Sample.strict_schema (Sample.post (JStr "a@b.c") (JStr "s3cret")))
     = [].
Proof.
  apply (POST_invalid_draft Sample.strict_schema
           (Sample.post (JStr "a@b.c") (JStr "s3cret"))
           (draft Sample.strict_schema (JStr "shop")));
    reflexivity.
Defined.

Lemma POST_cast_threw_witness :
  settles Sample.throwing_casts (Sample.post (JStr "a@b.c") (JStr "s3cret"))
  = Rejected Sample.type_error
  /\ serve Sample.throwing_casts (Sample.post (JStr "a@b.c") (JStr "s3cret")) = fresh.
Proof.
  apply (POST_cast_threw Sample.throwing_casts
           (Sample.post (JStr "a@b.c") (JStr "s3cret")) Sample.type_error);
    reflexivity.
Defined.

(** X5: a PATCH request whose [tenant] is missing, or has no [id] or no
    [slug], is answered with status 304 and no body; neither the session
    verifier nor the store is called. *)
Theorem PATCH_incomplete (svc : Services) (req : Request) :
  method req = Some "PATCH" ->
  truthy (prop (body req) "tenant") = false
  \/ truthy (opt_prop (prop (body req) "tenant") "id") = false
  \/ truthy (opt_prop (prop (body req) "tenant") "slug") = false ->
  res (serve svc req) = replied (JNum 304) (BEnd JUndef)
  /\ calls (serve svc req) = [].
Proof.
  intros Hm H. unfold serve. rewrite handler_PATCH by done. unfold PATCH.
  destruct H as [-> | [-> | ->]]; simpl; by rewrite ?orb_true_r.
Qed.

Lemma PATCH_incomplete_witness :
  res (serve Sample.svc Sample.patch_without_slug) = replied (JNum 304) (BEnd JUndef)
  /\ calls (serve Sample.svc Sample.patch_without_slug) = [].
Proof.
  apply (PATCH_incomplete Sample.svc Sample.patch_without_slug).
  - reflexivity.
  - right. right. reflexivity.
Defined.

(** X6: when the owner of the tenant is verified but the server-update cast
    throws, the throw is caught as a failed verification: the response is 401
    with the message about the expired session, and [TenantStore.update] is
    not called. *)
Theorem PATCH_cast_throw_answered_401
    (svc : Services) (req : Request) (tenant : JsVal) (payload e : gmap string JsVal) :
  patchable req tenant ->
  session_verify svc (prop (headers req) "authorization") = Fulfilled payload ->
  strict_eq (prop payload "uid") (opt_prop tenant "id") = true ->
  server_update_cast svc (rest_without "id" tenant) = Rejected e ->
  res (serve svc req)
  = replied (JNum 401)
      (BEnd (JStr "La sesión expiró, volvé a iniciar sesión para continuar"))
  /\ calls (serve svc req) = [CVerify (prop (headers req) "authorization")].
Proof.
  intros Hp Hv Heq Hc. unfold serve. rewrite handler_PATCH by apply Hp.
  by rewrite (PATCH_cast_threw svc req tenant Hp payload Hv e).
Qed.

Lemma PATCH_cast_throw_answered_401_witness :
  res (serve Sample.throwing_casts (Sample.patch "u1"))
  = replied (JNum 401)
      (BEnd (JStr "La sesión expiró, volvé a iniciar sesión para continuar"))
  /\ calls (serve Sample.throwing_casts (Sample.patch "u1")) = [CVerify (JStr "token")].
Proof.
  apply (PATCH_cast_throw_answered_401 Sample.throwing_casts (Sample.patch "u1")
           (JObj (Sample.shop "u1")) {["uid" := JStr "u1"]} Sample.type_error).
  - repeat split.
  - reflexivity.
  - reflexivity.
  - reflexivity.
Defined.

(** X7: a request whose method is none of GET, POST and PATCH (or that has
    no method) is answered with status 304 and no body, whatever it carries,
    and no collaborator is called. *)
Theorem other_method_not_handled (svc : Services) (req : Request) :
  method req ≠ Some "GET" ->
  method req ≠ Some "POST" ->
  method req ≠ Some "PATCH" ->
  res (serve svc req) = replied (JNum 304) (BEnd JUndef)
  /\ calls (serve svc req) = [].
Proof.
  intros Hg Hp Hq. unfold serve, handler.
  by rewrite !method_is_false.
Qed.

Lemma other_method_not_handled_witness :
  res (serve Sample.svc Sample.put) = replied (JNum 304) (BEnd JUndef)
  /\ calls (serve Sample.svc Sample.put) = [].
Proof.
  apply (other_method_not_handled Sample.svc Sample.put); discriminate.
Defined.

(** ** What the handler never does *)

Lemma guard_passed (a b c d e : bool) :
  negb a || negb b || negb c || negb d || negb e = false ->
  a = true /\ b = true /\ c = true /\ d = true /\ e = true.
Proof. by destruct a, b, c, d, e. Qed.

Lemma validated_path (svc : Services) (req : Request) (tenant : gmap string JsVal) :
  method_is req "POST" = true ->
  negb (truthy (prop (body req) "email")) || negb (truthy (prop (body req) "password"))
  || negb (truthy (prop (query req) "slug")) || negb (truthy (prop (body req) "secret"))
  || negb (strict_eq (prop (body req) "secret") (env (SECRET svc))) = false ->
  server_create_cast svc (draft svc (prop (query req) "slug")) = Fulfilled tenant ->
  negb (server_fetch_isValidSync svc (with_fake_id tenant)) = false ->
  validated svc req tenant.
Proof.
  intros Hm Hg Hcast Hv. apply guard_passed in Hg as (He & Hp & Hs & Hk & Heq).
  apply negb_false_iff in Hv. apply strict_eq_env in Heq.
  unfold validated. by auto 10 using method_is_true.
Qed.

(** X8: [TenantStore.update] is never called on behalf of anybody but the
    owner: whenever it is called with [id], the session verifier has resolved
    the token of the request to a payload whose [uid] is [id], and the
    verification and the update are the only calls made. *)
Theorem update_only_for_owner
    (svc : Services) (req : Request) (id : JsVal) (patch : gmap string JsVal) :
  CUpdate id patch ∈ calls (serve svc req) ->
  exists payload : gmap string JsVal,
    session_verify svc (prop (headers req) "authorization") = Fulfilled payload
    /\ strict_eq (prop payload "uid") id = true
    /\ calls (serve svc req)
       = [CVerify (prop (headers req) "authorization"); CUpdate id patch].
Proof.
  all_paths; intros Hin; in_log Hin;
    match goal with
    | Hv : session_verify _ _ = Fulfilled ?p, Hu : negb (strict_eq _ _) = false |- _ =>
        exists p; apply negb_false_iff in Hu; by rewrite Hu
    end.
Qed.

Lemma update_only_for_owner_witness :
  exists payload : gmap string JsVal,
    session_verify Sample.svc (prop (headers (Sample.patch "u1")) "authorization")
    = Fulfilled payload
    /\ strict_eq (prop payload "uid") (JStr "u1") = true
    /\ calls (serve Sample.svc (Sample.patch "u1"))
       = [CVerify (prop (headers (Sample.patch "u1")) "authorization");
          CUpdate (JStr "u1") (delete "id" (Sample.shop "u1"))].
Proof.
  apply (update_only_for_owner Sample.svc (Sample.patch "u1") (JStr "u1")
           (delete "id" (Sample.shop "u1"))).
  vm_compute. apply list_elem_of_further, list_elem_of_here.
Defined.

(** X9: [TenantStore.create] is never called for a request that did not pass
    validation: whenever it is called, the request is a POST with the four
    fields and the configured secret, the draft passed is the server-create
    cast that was found valid, the credentials passed are those of the body,
    and it is the only call made. *)
Theorem create_only_when_validated
    (svc : Services) (req : Request) (email password : JsVal)
    (tenant : gmap string JsVal) :
  CCreate email password tenant ∈ calls (serve svc req) ->
  validated svc req tenant
  /\ email = prop (body req) "email"
  /\ password = prop (body req) "password"
  /\ calls (serve svc req) = [CCreate email password tenant].
Proof.
  all_paths; intros Hin; in_log Hin;
    match goal with
    | Hg : _ || _ = false, Hv : negb (server_fetch_isValidSync _ _) = false |- _ =>
        apply guard_passed in Hg as (He & Hp & Hs & Hk & Heq);
        apply negb_false_iff in Hv; apply strict_eq_env in Heq
    end;
    (split; [| done]); unfold validated;
    repeat (split; [by auto using method_is_true |]); done.
Qed.

Lemma create_only_when_validated_witness :
  validated Sample.svc (Sample.post (JStr "a@b.c") (JStr "s3cret"))
    (draft Sample.svc (JStr "shop"))
  /\ JStr "a@b.c" = prop (body (Sample.post (JStr "a@b.c") (JStr "s3cret"))) "email"
  /\ JStr "hunter2" = prop (body (Sample.post (JStr "a@b.c") (JStr "s3cret"))) "password"
  /\ calls (serve Sample.svc (Sample.post (JStr "a@b.c") (JStr "s3cret")))
     = [CCreate (JStr "a@b.c") (JStr "hunter2") (draft Sample.svc (JStr "shop"))].
Proof.
  apply (create_only_when_validated Sample.svc
           (Sample.post (JStr "a@b.c") (JStr "s3cret"))
           (JStr "a@b.c") (JStr "hunter2") (draft Sample.svc (JStr "shop"))).
  vm_compute. apply list_elem_of_here.
Defined.

(** X10: [TenantStore.fetch] is never called without the configured secret:
    whenever it is called, the request is a GET whose [secret] is the
    configured one, the slug asked for is that of the query, and it is the
    only call made. *)
Theorem fetch_only_with_secret (svc : Services) (req : Request) (slug : JsVal) :
  CFetch slug ∈ calls (serve svc req) ->
  method req = Some "GET"
  /\ prop (query req) "secret" = env (SECRET svc)
  /\ slug = prop (query req) "slug"
  /\ calls (serve svc req) = [CFetch slug].
Proof.
  all_paths; intros Hin; in_log Hin;
    match goal with
    | Hs : negb (strict_eq _ _) = false |- _ =>
        apply negb_false_iff, strict_eq_env in Hs
    end;
    auto using method_is_true.
Qed.

Lemma fetch_only_with_secret_witness :
  method (Sample.get (JStr "s3cret")) = Some "GET"
  /\ prop (query (Sample.get (JStr "s3cret"))) "secret" = env (SECRET Sample.svc)
  /\ JStr "shop" = prop (query (Sample.get (JStr "s3cret"))) "slug"
  /\ calls (serve Sample.svc (Sample.get (JStr "s3cret"))) = [CFetch (JStr "shop")].
Proof.
  apply (fetch_only_with_secret Sample.svc (Sample.get (JStr "s3cret")) (JStr "shop")).
  vm_compute. apply list_elem_of_here.
Defined.

(** X11: a request makes at most one call to the tenant store, and the
    session verifier is called only to be followed by at most one update: the
    calls of a request are none, one fetch, one create, one verification, or
    one verification and then one update. *)
Theorem calls_of_a_request (svc : Services) (req : Request) :
  calls (serve svc req) = []
  \/ (exists slug, calls (serve svc req) = [CFetch slug])
  \/ (exists email password tenant,
        calls (serve svc req) = [CCreate email password tenant])
  \/ (exists token, calls (serve svc req) = [CVerify token])
  \/ (exists token id patch,
        calls (serve svc req) = [CVerify token; CUpdate id patch]).
Proof. all_paths; naive_solver. Qed.

(** X12: the promise of the handler fulfils exactly when a response was
    sent.  It rejects, with nothing sent, in two cases only: the server-create
    cast of a POST request threw, and then nothing was called either; or the
    response object refused the [status] or the [statusText] of the error
    with which [fetch] or [create] rejected or the client-fetch cast threw. *)
Theorem answered_or_rejected_unsent (svc : Services) (req : Request) :
  (settles svc req = Fulfilled tt /\ is_Some (sent (res (serve svc req))))
  \/ (exists err : gmap string JsVal,
        settles svc req = Rejected err
        /\ sent (res (serve svc req)) = None
        /\ ((method req = Some "POST"
             /\ server_create_cast svc (draft svc (prop (query req) "slug"))
                = Rejected err
             /\ serve svc req = fresh)
            \/ (exists e : gmap string JsVal,
                  (api_fetch svc (prop (query req) "slug") = Rejected e
                   \/ (exists t, api_fetch svc (prop (query req) "slug") = Fulfilled t
                                 /\ client_fetch_cast svc t = Rejected e)
                   \/ (exists t, validated svc req t
                                 /\ api_create svc (prop (body req) "email")
                                      (prop (body req) "password") t = Rejected e))
                  /\ valid_status svc (prop e "status")
                     && writable (prop e "statusText") = false
                  /\ err = end_error svc (prop e "status") (prop e "statusText")))).
Proof.
  all_paths; try (left; split; [done | by eexists]).
  all: right; eexists; split; [done |]; split; [done |].
  all: try (left; by auto using method_is_true).
  all: right; eexists; split; [| done]; eauto.
  do 2 right. eexists. split; [by apply validated_path |]. done.
Qed.

(** X13: the responses the handler chooses by itself are 304 and 403 with no
    body, 200 with a JSON body, 400 and 401 with their fixed messages; any
    other response that is sent takes its status and its body from the
    [status] and the [statusText] of the error with which [fetch] or [create]
    rejected or the client-fetch cast threw. *)
Theorem responses_of_the_handler (svc : Services) (req : Request) :
  sent (res (serve svc req)) = None
  \/ res (serve svc req) = replied (JNum 304) (BEnd JUndef)
  \/ (exists v, res (serve svc req) = replied (JNum 200) (BJson v))
  \/ res (serve svc req)
     = replied (JNum 400) (BEnd (JStr "Hubo un error actualizando la tienda"))
  \/ res (serve svc req)
     = replied (JNum 401)
         (BEnd (JStr "La sesión expiró, volvé a iniciar sesión para continuar"))
  \/ res (serve svc req) = replied (JNum 403) (BEnd JUndef)
  \/ (exists e : gmap string JsVal,
        (api_fetch svc (prop (query req) "slug") = Rejected e
         \/ (exists t, api_fetch svc (prop (query req) "slug") = Fulfilled t
                       /\ client_fetch_cast svc t = Rejected e)
         \/ (exists t, validated svc req t
                       /\ api_create svc (prop (body req) "email")
                            (prop (body req) "password") t = Rejected e))
        /\ res (serve svc req)
           = replied (JNum (status_int32 svc (prop e "status")))
               (BEnd (prop e "statusText"))).
Proof.
  all_paths; unfold replied; try naive_solver.
  do 6 right. eexists. split; [| done].
  do 2 right. eexists. split; [by apply validated_path |]. done.
Qed.

(** X14: while no secret is configured no tenant can be created: every POST
    request is then answered with status 304 and no body, and nothing is
    called, whatever secret it carries. *)
Theorem POST_closed_without_secret (svc : Services) (req : Request) :
  SECRET svc = None ->
  method req = Some "POST" ->
  res (serve svc req) = replied (JNum 304) (BEnd JUndef)
  /\ calls (serve svc req) = [].
Proof.
  intros Hs Hm. unfold serve. rewrite handler_POST by done.
  rewrite POST_rejected; [done |]. rewrite Hs. simpl.
  destruct (prop (body req) "secret"); simpl; auto.
Qed.

Lemma POST_closed_without_secret_witness :
  res (serve Sample.no_secret (Sample.post (JStr "a@b.c") (JStr "s3cret")))
  = replied (JNum 304) (BEnd JUndef)
  /\ calls (serve Sample.no_secret (Sample.post (JStr "a@b.c") (JStr "s3cret"))) = [].
Proof.
  apply (POST_closed_without_secret Sample.no_secret
           (Sample.post (JStr "a@b.c") (JStr "s3cret")));
    reflexivity.
Defined.

(** X15: the placeholder identifier only completes the draft for validation:
    the validated object has the [id] of the draft where the draft has one
    and ["fake-id"] otherwise, and is the draft in every other field. *)
Theorem fake_id_only_fills_in (tenant : gmap string JsVal) :
  with_fake_id tenant !! "id" = Some (default (JStr "fake-id") (tenant !! "id"))
  /\ delete "id" (with_fake_id tenant) = delete "id" tenant.
Proof.
  unfold with_fake_id. split.
  - rewrite lookup_union. destruct (tenant !! "id"); by simplify_map_eq.
  - apply map_eq. intros k. destruct (decide (k = "id")) as [-> | Hk].
    + by rewrite !lookup_delete_eq.
    + rewrite !lookup_delete_ne by done. rewrite lookup_union.
      rewrite lookup_singleton_ne by done. by destruct (tenant !! k).
Qed.

(** X16: a PATCH request is served from its [tenant] and its authorization
    token alone, and by the session verifier, the server-update schema and
    the update of the store alone: the configured secret, the clock, the
    query and the other collaborators have no part in its outcome. *)
Theorem PATCH_reads_tenant_and_token_only (svc svc' : Services) (req req' : Request) :
  method req = Some "PATCH" ->
  method req' = Some "PATCH" ->
  prop (body req) "tenant" = prop (body req') "tenant" ->
  prop (headers req) "authorization" = prop (headers req') "authorization" ->
  session_verify svc = session_verify svc' ->
  server_update_cast svc = server_update_cast svc' ->
  api_update svc = api_update svc' ->
  handler svc req fresh = handler svc' req' fresh.
Proof.
  intros Hm Hm' Ht Ha Hv Hc Hu. rewrite !handler_PATCH by done.
  unfold PATCH. by rewrite Ht, Ha, Hv, Hc, Hu.
Qed.

Lemma PATCH_reads_tenant_and_token_only_witness :
  handler Sample.svc (Sample.patch "u1") fresh
  = handler Sample.no_secret Sample.put_as_patch fresh.
Proof.
  apply (PATCH_reads_tenant_and_token_only Sample.svc Sample.no_secret
           (Sample.patch "u1") Sample.put_as_patch);
    reflexivity.
Defined.

(** X17: splitting the tenant of a PATCH request into [id] and the rest
    loses nothing: past the guard the tenant is an object, and the rest with
    the [id] put back is the tenant. *)
Theorem id_and_rest_make_the_tenant (req : Request) (tenant : JsVal) :
  patchable req tenant ->
  exists t : gmap string JsVal,
    tenant = JObj t
    /\ <["id" := opt_prop tenant "id"]> (rest_without "id" tenant) = t.
Proof.
  intros (_ & _ & _ & Hid & _).
  apply truthy_opt_prop in Hid as (t & -> & Hid). exists t. split; [done |].
  simpl. unfold prop in *. destruct (t !! "id") as [v |] eqn:Hv; [| done].
  simpl. rewrite insert_delete_eq. by apply insert_id.
Qed.

Lemma id_and_rest_make_the_tenant_witness :
  exists t : gmap string JsVal,
    JObj (Sample.shop "u1") = JObj t
    /\ <["id" := opt_prop (JObj (Sample.shop "u1")) "id"]>
         (rest_without "id" (JObj (Sample.shop "u1"))) = t.
Proof.
  apply (id_and_rest_make_the_tenant (Sample.patch "u1") (JObj (Sample.shop "u1"))).
  repeat split.
Defined.
